(** * LocalSolana movie-token client: the initialisation script

    A shallow embedding of [src/solana-movie-token-client/src/index.ts]
    and of the pure SDK primitives it calls, followed by the properties
    the specification states about it.

    Layout:
    - [Js]      thrown values and results of synchronous calls;
    - [Sha256], [Ed25519], [Bs58]  the primitives behind address
                derivation;
    - [Web3], [SplToken]  keys, [findProgramAddress], instructions and
                transactions of the SDK;
    - [Script]  the script itself, over its two impure collaborators:
                the keypair provider and the submission call;
    - the spec-side definitions and the properties. *)

From Stdlib Require Import ZArith List String Ascii Bool Lia.
From Stdlib Require Import Init.Byte.
Import ListNotations.

Local Open Scope string_scope.
Local Open Scope list_scope.
Local Open Scope Z_scope.

(** ** Bytes and buffers *)

Definition Buffer := list byte.

Definition byte_to_Z (b : byte) : Z := Z.of_N (Byte.to_N b).

Definition byte_of_Z (z : Z) : byte :=
  match Byte.of_N (Z.to_N (z mod 256)) with
  | Some b => b
  | None => x00
  end.

(** [Buffer.from(str)]: the bytes of the string. *)
Definition Buffer_from (s : string) : Buffer := list_byte_of_string s.

(** [Buffer.from([n, ...])]: every number truncated to a byte. *)
Definition Buffer_from_array (l : list Z) : Buffer := map byte_of_Z l.

(** Big-endian number held by a buffer. *)
Definition be_to_Z (b : Buffer) : Z :=
  fold_left (fun acc x => acc * 256 + byte_to_Z x) b 0.

(** Little-endian number held by a buffer. *)
Definition le_to_Z (b : Buffer) : Z :=
  fold_right (fun x acc => byte_to_Z x + 256 * acc) 0 b.

(** The [n] low-order bytes of [z], most significant first. *)
Fixpoint be_bytes (n : nat) (z : Z) : Buffer :=
  match n with
  | O => []
  | S n' => be_bytes n' (z / 256) ++ [byte_of_Z z]
  end.

(** Number of bytes of the shortest big-endian representation. *)
Definition byteLength (z : Z) : nat :=
  if z <=? 0 then O else Z.to_nat (Z.log2 z / 8 + 1).

(** ** Thrown values and results *)

Module Js.

(** What a [throw] carries; the two classes the SDK tells apart. *)
Inductive Exn : Type :=
| Error (message : string)
| TypeError (message : string).

(** Result of a synchronous computation that may throw. *)
Inductive Result (A : Type) : Type :=
| Ok (a : A)
| Throw (e : Exn).
Arguments Ok {A} a.
Arguments Throw {A} e.

Definition bindR {A B} (r : Result A) (k : A -> Result B) : Result B :=
  match r with
  | Ok a => k a
  | Throw e => Throw e
  end.

End Js.
Import Js.

(** ** SHA-256 (FIPS 180-4) on 32-bit words held in [Z] *)

Module Sha256.

Definition mask32 : Z := 0xffffffff.
Definition add32 (x y : Z) : Z := (x + y) mod 2 ^ 32.
Definition rotr (n x : Z) : Z :=
  Z.lor (Z.shiftr x n) (Z.land (Z.shiftl x (32 - n)) mask32).
Definition shr (n x : Z) : Z := Z.shiftr x n.

Definition Ch (x y z : Z) : Z :=
  Z.lxor (Z.land x y) (Z.land (Z.lxor x mask32) z).
Definition Maj (x y z : Z) : Z :=
  Z.lxor (Z.lxor (Z.land x y) (Z.land x z)) (Z.land y z).
Definition Sigma0 (x : Z) : Z := Z.lxor (Z.lxor (rotr 2 x) (rotr 13 x)) (rotr 22 x).
Definition Sigma1 (x : Z) : Z := Z.lxor (Z.lxor (rotr 6 x) (rotr 11 x)) (rotr 25 x).
Definition sigma0 (x : Z) : Z := Z.lxor (Z.lxor (rotr 7 x) (rotr 18 x)) (shr 3 x).
Definition sigma1 (x : Z) : Z := Z.lxor (Z.lxor (rotr 17 x) (rotr 19 x)) (shr 10 x).

(** The first 64 primes. *)
Definition primes : list Z :=
  [2; 3; 5; 7; 11; 13; 17; 19; 23; 29; 31; 37; 41; 43; 47; 53;
   59; 61; 67; 71; 73; 79; 83; 89; 97; 101; 103; 107; 109; 113; 127; 131;
   137; 139; 149; 151; 157; 163; 167; 173; 179; 181; 191; 193; 197; 199; 211; 223;
   227; 229; 233; 239; 241; 251; 257; 263; 269; 271; 277; 281; 283; 293; 307; 311].

(** Integer cube root, found bit by bit from bit [bits - 1] down. *)
Fixpoint cube_root (bits : nat) (n r : Z) : Z :=
  match bits with
  | O => r
  | S b =>
      let c := r + 2 ^ Z.of_nat b in
      cube_root b n (if c * c * c <=? n then c else r)
  end.

(** First 32 bits of the fractional part of a cube root, of a square
    root. *)
Definition cbrt_frac32 (p : Z) : Z := cube_root 40 (p * 2 ^ 96) 0 mod 2 ^ 32.
Definition sqrt_frac32 (p : Z) : Z := Z.sqrt (p * 2 ^ 64) mod 2 ^ 32.

(** The round constants: cube roots of the first 64 primes. *)
Definition K : list Z := Eval vm_compute in map cbrt_frac32 primes.

(** Padding: the bit 1, zero bits up to 56 mod 64 bytes, then the bit
    length on 8 bytes. *)
Definition pad (msg : Buffer) : Buffer :=
  let len := Z.of_nat (List.length msg) in
  msg ++ [x80] ++ repeat x00 (Z.to_nat ((55 - len) mod 64))
      ++ be_bytes 8 (8 * len).

(** Big-endian 32-bit words of a buffer; a trailing partial word is
    dropped (a padded message has none). *)
Fixpoint words (b : Buffer) : list Z :=
  match b with
  | b0 :: b1 :: b2 :: b3 :: rest => be_to_Z [b0; b1; b2; b3] :: words rest
  | _ => []
  end.

(** The message schedule, grown from the 16 words of a block by [n]
    further entries. *)
Fixpoint schedule (n : nat) (ws : list Z) : list Z :=
  match n with
  | O => ws
  | S n' =>
      let t := List.length ws in
      let at_ (back : nat) := nth (t - back) ws 0 in
      let wt := add32 (add32 (sigma1 (at_ 2%nat)) (at_ 7%nat))
                      (add32 (sigma0 (at_ 15%nat)) (at_ 16%nat)) in
      schedule n' (ws ++ [wt])
  end.

Record Regs : Type := mkRegs { ra : Z; rb : Z; rc : Z; rd : Z;
                               re : Z; rf : Z; rg : Z; rh : Z }.

Definition round (s : Regs) (kw : Z * Z) : Regs :=
  let '(k, w) := kw in
  let t1 := add32 (add32 (add32 (rh s) (Sigma1 (re s)))
                         (add32 (Ch (re s) (rf s) (rg s)) k)) w in
  let t2 := add32 (Sigma0 (ra s)) (Maj (ra s) (rb s) (rc s)) in
  mkRegs (add32 t1 t2) (ra s) (rb s) (rc s)
         (add32 (rd s) t1) (re s) (rf s) (rg s).

Definition compress (h : Regs) (block : list Z) : Regs :=
  let s := fold_left round (combine K (schedule 48 block)) h in
  mkRegs (add32 (ra h) (ra s)) (add32 (rb h) (rb s))
         (add32 (rc h) (rc s)) (add32 (rd h) (rd s))
         (add32 (re h) (re s)) (add32 (rf h) (rf s))
         (add32 (rg h) (rg s)) (add32 (rh h) (rh s)).

(** Runs the compression over the successive 16-word blocks. *)
Fixpoint blocks (fuel : nat) (h : Regs) (ws : list Z) : Regs :=
  match fuel, ws with
  | S fuel', _ :: _ => blocks fuel' (compress h (firstn 16 ws)) (skipn 16 ws)
  | _, _ => h
  end.

(** The initial hash value: square roots of the first 8 primes. *)
Definition init : Regs := Eval vm_compute in
  match map sqrt_frac32 (firstn 8 primes) with
  | [a; b; c; d; e; f; g; h] => mkRegs a b c d e f g h
  | _ => mkRegs 0 0 0 0 0 0 0 0
  end.

Definition sha256 (msg : Buffer) : Buffer :=
  let ws := words (pad msg) in
  let h := blocks (List.length ws) init ws in
  flat_map (be_bytes 4)
    [ra h; rb h; rc h; rd h; re h; rf h; rg h; rh h].

End Sha256.

(** ** The Edwards curve test of the SDK

    Field elements are residues modulo 2^255 - 19.  The SDK tests a
    32-byte string by decoding it as a curve point, strictly: the y
    coordinate must be canonical (below the prime), a square root must
    exist for x, and x = 0 may not carry the sign bit. *)

Module Ed25519.

Definition P : Z := 2 ^ 255 - 19.

(** The curve constant d = -121665/121666 and a square root of -1. *)
Definition D : Z :=
  0x52036cee2b6ffe738cc740797779e89800700a4d4141d8ab75eb4dca135978a3.
Definition I : Z :=
  0x2b8324804fc1df0b2b4d00993dfbd7a72f431806ad2fe478c4ee1b274a0ea0b0.

(** One carry step: 2^255 is 19 modulo [P], so the bits above the
    255th are folded back 19 times. *)
Definition carry (x : Z) : Z :=
  Z.land x (Z.ones 255) + 19 * Z.shiftr x 255.

(** Residue modulo [P] (see [reduce_mod]); the two carry steps only
    keep the final division short. *)
Definition reduce (x : Z) : Z := carry (carry x) mod P.

Definition fmul (a b : Z) : Z := reduce (a * b).
Definition fsq (a : Z) : Z := fmul a a.
Definition fadd (a b : Z) : Z := reduce (a + b).
Definition fsub (a b : Z) : Z := reduce (a - b).

Fixpoint powm (b : Z) (e : positive) : Z :=
  match e with
  | xH => reduce b
  | xO e' => fsq (powm b e')
  | xI e' => fmul (fsq (powm b e')) b
  end.

(** Raises to the power (p - 5) / 8 = 2^252 - 3. *)
Definition pow2523 (a : Z) : Z := powm a (Z.to_pos (2 ^ 252 - 3)).

(** [uvRatio]: whether u/v is a square, and its even square root. *)
Definition uvRatio (u v : Z) : bool * Z :=
  let v3 := fmul (fmul v v) v in
  let v7 := fmul (fmul v3 v3) v in
  let pow := pow2523 (fmul u v7) in
  let x := fmul (fmul u v3) pow in
  let vx2 := fmul (fmul v x) x in
  let root1 := x in
  let root2 := fmul x I in
  let useRoot1 := vx2 =? u in
  let useRoot2 := vx2 =? fsub 0 u in
  let noRoot := vx2 =? fmul (fsub 0 u) I in
  let x := if useRoot1 then root1 else x in
  let x := if useRoot2 || noRoot then root2 else x in
  let x := if Z.odd x then fsub 0 x else x in
  (useRoot1 || useRoot2, x).

(** [Point.fromHex]: the point (x, y) that 32 bytes encode, y in
    little-endian order with the sign of x in the top bit; [None]
    where the SDK's decoder throws. *)
Definition fromHex (hex : Buffer) : option (Z * Z) :=
  if negb (Nat.eqb (List.length hex) 32) then None else
  let isLastByteOdd := Z.testbit (le_to_Z hex) 255 in
  let y := Z.land (le_to_Z hex) (Z.ones 255) in
  if negb ((0 <=? y) && (y <? P)) then None else
  let y2 := fsq y in
  let u := fsub y2 1 in
  let v := fadd (fmul D y2) 1 in
  let '(isValid, x) := uvRatio u v in
  if negb isValid then None else
  if (x =? 0) && isLastByteOdd then None else
  let x := if Bool.eqb isLastByteOdd (Z.odd x) then x else fsub 0 x in
  Some (x, y).

(** [isOnCurve]: whether the bytes decode to a curve point. *)
Definition is_on_curve (p : Buffer) : bool :=
  match fromHex p with
  | Some _ => true
  | None => false
  end.

End Ed25519.

(** ** Base-58 decoding ([bs58.decode]) *)

Module Bs58.

Definition ALPHABET : string :=
  "123456789ABCDEFGHJKLMNPQRSTUVWXYZabcdefghijkmnopqrstuvwxyz".

Fixpoint index_of (c : ascii) (s : string) (i : Z) : option Z :=
  match s with
  | EmptyString => None
  | String c' s' => if Ascii.eqb c c' then Some i else index_of c s' (i + 1)
  end.

(** Number of leading ['1'] characters: each stands for a zero byte. *)
Fixpoint zeroes (s : string) : nat :=
  match s with
  | String "1"%char s' => S (zeroes s')
  | _ => O
  end.

Fixpoint value (s : string) (acc : Z) : option Z :=
  match s with
  | EmptyString => Some acc
  | String c s' =>
      match index_of c ALPHABET 0 with
      | Some d => value s' (acc * 58 + d)
      | None => None
      end
  end.

Definition decode (s : string) : Result Buffer :=
  match value s 0 with
  | Some n => Ok (repeat x00 (zeroes s) ++ be_bytes (byteLength n) n)
  | None => Throw (Error "Non-base58 character")
  end.

End Bs58.

(** ** The SDK: keys, derived addresses, instructions, transactions

    [@solana/web3.js] as far as the script uses it.  Its code is not
    under src/; the definitions follow what the SDK does. *)

Module Web3.

Definition PUBLIC_KEY_LENGTH : nat := 32.
Definition MAX_SEED_LENGTH : nat := 32.

(** A public key is the number its 32 bytes spell, most significant
    byte first. *)
Record PublicKey : Type := mkPublicKey { bn : Z }.

(** [new PublicKey(str)]: base-58 text of exactly 32 bytes. *)
Definition PublicKey_of_string (value : string) : Result PublicKey :=
  bindR (Bs58.decode value) (fun decoded =>
    if Nat.eqb (List.length decoded) PUBLIC_KEY_LENGTH
    then Ok (mkPublicKey (be_to_Z decoded))
    else Throw (Error "Invalid public key input")).

(** [new PublicKey(bytes)]: at most 32 bytes. *)
Definition PublicKey_of_bytes (value : Buffer) : Result PublicKey :=
  if Nat.leb (byteLength (be_to_Z value)) PUBLIC_KEY_LENGTH
  then Ok (mkPublicKey (be_to_Z value))
  else Throw (Error "Invalid public key input").

(** [key.toBuffer()]: always 32 bytes, zero-padded on the left. *)
Definition toBuffer (k : PublicKey) : Buffer := be_bytes PUBLIC_KEY_LENGTH (bn k).

(** A constant the SDK builds from base-58 text; the fallback is never
    taken for the constants below (see [PROGRAM_ID_constructed] and
    its siblings). *)
Definition constant_key (value : string) : PublicKey :=
  match PublicKey_of_string value with
  | Ok k => k
  | Throw _ => mkPublicKey 0
  end.

Definition SystemProgram_programId : PublicKey := Eval vm_compute in
  constant_key "11111111111111111111111111111111".
Definition SYSVAR_RENT_PUBKEY : PublicKey := Eval vm_compute in
  constant_key "SysvarRent111111111111111111111111111111111".

(** Refuses a seed longer than [MAX_SEED_LENGTH], else appends it. *)
Fixpoint concat_seeds (seeds : list Buffer) (buffer : Buffer) : Result Buffer :=
  match seeds with
  | [] => Ok buffer
  | seed :: rest =>
      if Nat.ltb MAX_SEED_LENGTH (List.length seed)
      then Throw (TypeError "Max seed length exceeded")
      else concat_seeds rest (buffer ++ seed)
  end.

(** Modelled from the spec: [PublicKey.createProgramAddress] is the
    SDK's derivation primitive and is not under src/; the spec names
    it a pure one-way function of (program identifier, seed bytes)
    giving an address that has no private key.  The SDK computes the
    SHA-256 of seeds, program identifier and a fixed marker, and
    refuses a digest that decodes to a point of the curve. *)
Definition createProgramAddress (seeds : list Buffer) (programId : PublicKey)
  : Result PublicKey :=
  bindR (concat_seeds seeds []) (fun buffer =>
    let buffer := buffer ++ toBuffer programId ++ Buffer_from "ProgramDerivedAddress" in
    let publicKeyBytes := Sha256.sha256 buffer in
    if Ed25519.is_on_curve publicKeyBytes
    then Throw (Error "Invalid seeds, address must fall off the curve")
    else PublicKey_of_bytes publicKeyBytes).

(** The search of [findProgramAddress]: [nonce] counts down and 0 is
    never tried; a [TypeError] aborts the search, any other failure
    moves on to the next nonce. *)
Fixpoint find_nonce (nonce : nat) (seeds : list Buffer) (programId : PublicKey)
  : Result (PublicKey * Z) :=
  match nonce with
  | O => Throw (Error "Unable to find a viable program address nonce")
  | S nonce' =>
      let seedsWithNonce := seeds ++ [Buffer_from_array [Z.of_nat nonce]] in
      match createProgramAddress seedsWithNonce programId with
      | Ok address => Ok (address, Z.of_nat nonce)
      | Throw (TypeError m) => Throw (TypeError m)
      | Throw (Error _) => find_nonce nonce' seeds programId
      end
  end.

(** Modelled from the spec: [PublicKey.findProgramAddress] is not
    under src/ (it is the SDK's); this is the spec's
    [derive(programId, seed)] together with the nonce found, the
    search starting at 255. *)
Definition findProgramAddress (seeds : list Buffer) (programId : PublicKey)
  : Result (PublicKey * Z) :=
  find_nonce 255 seeds programId.

Record Keypair : Type := mkKeypair {
  publicKey : PublicKey;
  secretKey : Buffer
}.

(** One account reference of an instruction. *)
Record AccountMeta : Type := mkAccountMeta {
  pubkey : PublicKey;
  isSigner : bool;
  isWritable : bool
}.

Record TransactionInstruction : Type := mkTransactionInstruction {
  keys : list AccountMeta;
  programId : PublicKey;
  data : Buffer
}.

Record Transaction : Type := mkTransaction {
  instructions : list TransactionInstruction
}.

(** [new Transaction()] and [tx.add(ix)]. *)
Definition new_Transaction : Transaction := mkTransaction [].
Definition add (tx : Transaction) (ix : TransactionInstruction) : Transaction :=
  mkTransaction (instructions tx ++ [ix]).

Record Connection : Type := mkConnection { rpcEndpoint : string }.

(** The text after the first [":"], provided something precedes it:
    the scheme of the SDK's endpoint pattern. *)
Fixpoint after_scheme (s : string) (seen : bool) : option string :=
  match s with
  | EmptyString => None
  | String c s' =>
      if Ascii.eqb c ":" then (if seen then Some s' else None)
      else after_scheme s' true
  end.

(** At least one character other than ["]"], then ["]"]. *)
Fixpoint closes_bracket (s : string) (seen : bool) : bool :=
  match s with
  | EmptyString => false
  | String c s' => if Ascii.eqb c "]" then seen else closes_bracket s' true
  end.

(** A host starts here: a character that is neither [":"] nor ["["],
    or a bracketed literal. *)
Definition starts_with_host (s : string) : bool :=
  match s with
  | EmptyString => false
  | String c s' =>
      if Ascii.eqb c ":" then false
      else if Ascii.eqb c "[" then closes_bracket s' false
      else true
  end.

(** The SDK's endpoint pattern: scheme, ["://"], host, then anything. *)
Definition matches_endpoint_pattern (endpoint : string) : bool :=
  match after_scheme endpoint false with
  | Some (String "/" (String "/" host)) => starts_with_host host
  | _ => false
  end.

(** [new Connection(url)]: the endpoint must start with [http:] or
    [https:] and have the form scheme://host from which the SDK makes
    its websocket address. *)
Definition new_Connection (endpoint : string) : Result Connection :=
  if String.prefix "http:" endpoint || String.prefix "https:" endpoint
  then
    if matches_endpoint_pattern endpoint
    then Ok (mkConnection endpoint)
    else Throw (TypeError ("Failed to validate endpoint URL `" ++ endpoint ++ "`")%string)
  else Throw (TypeError "Endpoint URL must start with `http:` or `https:`.").

End Web3.

Module SplToken.

Definition TOKEN_PROGRAM_ID : Web3.PublicKey := Eval vm_compute in
  Web3.constant_key "TokenkegQfeZyiNwAJbNbGKPFXCWuBvf9Ss623VQ5DA".

End SplToken.

(** ** The script [index.ts] *)

Module Script.
Import Web3.

(** What [console.log] received: a string or a thrown value. *)
Inductive Line : Type :=
| LogString (s : string)
| LogError (error : Exn).

(** One call of the submission collaborator. *)
Record Submission : Type := mkSubmission {
  sub_connection : Connection;
  sub_transaction : Transaction;
  sub_signers : list Keypair
}.

(** How an asynchronous step ends: its promise resolves, it rejects,
    or the process has exited meanwhile. *)
Inductive Outcome (A : Type) : Type :=
| Resolved (a : A)
| Rejected (e : Exn)
| Exited (code : Z).
Arguments Resolved {A} a.
Arguments Rejected {A} e.
Arguments Exited {A} code.

Definition of_result {A} (r : Result A) : Outcome A :=
  match r with
  | Ok a => Resolved a
  | Throw e => Rejected e
  end.

(** Lines 5-7. *)
Definition PROGRAM_ID : PublicKey := Eval vm_compute in
  constant_key "4QPCBtQ1qSwTmUy9yrGZoqCjZPen8eCE2HcHtKeNWYj6".

Section WithCollaborators.

(** Everything outside the script: the ledger node, the key store,
    and whatever the collaborators do to them. *)
Context {Env : Type}.

(** [./initializeKeypair] (line 1; its file is not under src/):
    supplies the signing keypair or fails. *)
Variable initializeKeypair_ext : Connection -> Env -> Result Keypair * Env.

(** [web3.sendAndConfirmTransaction]: submits, waits, and gives the
    transaction identifier or fails. *)
Variable sendAndConfirmTransaction_ext :
  Connection -> Transaction -> list Keypair -> Env -> Result string * Env.

(** The state a run threads: the outside world, the lines the
    script has printed, the submissions it has made. *)
Record World : Type := mkWorld {
  env : Env;
  console : list Line;
  submitted : list Submission
}.

Definition M (A : Type) : Type := World -> Outcome A * World.

Definition ret {A} (a : A) : M A := fun w => (Resolved a, w).

Definition bind {A B} (m : M A) (k : A -> M B) : M B :=
  fun w =>
    match m w with
    | (Resolved a, w') => k a w'
    | (Rejected e, w') => (Rejected e, w')
    | (Exited c, w') => (Exited c, w')
    end.

(** [p.catch(handler)] *)
Definition catch {A} (m : M A) (handler : Exn -> M A) : M A :=
  fun w =>
    match m w with
    | (Rejected e, w') => handler e w'
    | other => other
    end.

(** A synchronous SDK call inside an [async] function. *)
Definition lift {A} (r : Result A) : M A := fun w => (of_result r, w).

Definition console_log (l : Line) : M unit :=
  fun w => (Resolved tt, mkWorld (env w) (console w ++ [l]) (submitted w)).

Definition process_exit {A} (code : Z) : M A := fun w => (Exited code, w).

Definition initializeKeypair (connection : Connection) : M Keypair :=
  fun w =>
    let '(r, e') := initializeKeypair_ext connection (env w) in
    (of_result r, mkWorld e' (console w) (submitted w)).

Definition sendAndConfirmTransaction (connection : Connection)
    (tx : Transaction) (signers : list Keypair) : M string :=
  fun w =>
    let '(r, e') := sendAndConfirmTransaction_ext connection tx signers (env w) in
    (of_result r,
     mkWorld e' (console w)
             (submitted w ++ [mkSubmission connection tx signers])).

Notation "x <- m ;; k" := (bind m (fun x => k))
  (at level 61, m at next level, right associativity).
Notation "' p <- m ;; k" := (bind m (fun x => let 'p := x in k))
  (at level 61, p pattern, m at next level, right associativity).
Notation "m ;; k" := (bind m (fun _ => k))
  (at level 61, right associativity).

(** Lines 9-64.  The [programId] parameter is not used by the body; the
    bare expression of line 23 has no effect. *)
Definition initializeProgramTokenMint (connection : Connection)
    (signer : Keypair) (programId : PublicKey) : M string :=
  '(tokenMint, _) <- lift (findProgramAddress [Buffer_from "token_mint"] PROGRAM_ID) ;;
  '(tokenAuth, _) <- lift (findProgramAddress [Buffer_from "token_auth"] PROGRAM_ID) ;;
  let tx := new_Transaction in
  let ix := {|
    keys := [
      {| pubkey := publicKey signer; isSigner := true; isWritable := false |};
      {| pubkey := tokenMint; isSigner := false; isWritable := true |};
      {| pubkey := tokenAuth; isSigner := false; isWritable := false |};
      {| pubkey := SystemProgram_programId; isSigner := false; isWritable := false |};
      {| pubkey := SplToken.TOKEN_PROGRAM_ID; isSigner := false; isWritable := false |};
      {| pubkey := SYSVAR_RENT_PUBKEY; isSigner := false; isWritable := false |}
    ];
    Web3.programId := PROGRAM_ID;
    data := Buffer_from_array [3]
  |} in
  let tx := add tx ix in
  sendAndConfirmTransaction connection tx [signer].

(** Lines 66-74. *)
Definition main : M unit :=
  connection <- lift (new_Connection "http://localhost:8899") ;;
  signer <- initializeKeypair connection ;;
  txid <- initializeProgramTokenMint connection signer PROGRAM_ID ;;
  console_log
    (LogString ("Transaction submitted: https://explorer.solana.com/tx/"
                ++ txid ++ "?cluster=devnet")%string).

(** Lines 76-84, the top level: [main().then(...).catch(...)].  The
    handler of [catch] also covers the callback of [then]. *)
Definition run : M unit :=
  catch
    (main ;;
     console_log (LogString "Finished successfully") ;;
     process_exit 0)
    (fun error =>
       console_log (LogError error) ;;
       process_exit 1).

End WithCollaborators.

Arguments World : clear implicits.
Arguments M : clear implicits.

End Script.

(** * Specification-side definitions *)

Import Web3 SplToken Script.

(** The spec's [derive(programId, seed)]: the address component of
    [findProgramAddress] on the single seed [seed]. *)
Definition derive (programId : PublicKey) (seed : string) : Result PublicKey :=
  bindR (findProgramAddress [Buffer_from seed] programId)
        (fun found => Ok (fst found)).

(** The two addresses the script works with, in the SDK's base-58
    notation HPLucuErzspDcfxTtEQRupvwKLApdoFnm1dKXnkBsx13 and
    2VyCsVHDF6LFUB9nvXKuGfi3k9vpmx12XsyPMZuGhWeh. *)
Definition tokenMint_address : PublicKey :=
  mkPublicKey 0xf374471d4e88a4de58bb3481348e8097b258ba4b6ebdb6133828b4652437914e.
Definition tokenAuth_address : PublicKey :=
  mkPublicKey 0x16478019f298ba924458bcff01a82e771d1cbe8f81fae36eb235c9cf93cecc4e.

(** The six account references of the spec's layout (section 4.1). *)
Definition layout (signer tokenMint tokenAuth : PublicKey) : list AccountMeta :=
  [ mkAccountMeta signer true false;
    mkAccountMeta tokenMint false true;
    mkAccountMeta tokenAuth false false;
    mkAccountMeta SystemProgram_programId false false;
    mkAccountMeta TOKEN_PROGRAM_ID false false;
    mkAccountMeta SYSVAR_RENT_PUBKEY false false ].

(** The instruction the script assembles for [signer]. *)
Definition assembled (signer : Keypair) : TransactionInstruction :=
  mkTransactionInstruction
    (layout (publicKey signer) tokenMint_address tokenAuth_address)
    PROGRAM_ID [x03].

(** The builder as the spec words it (section 4.1): both addresses are
    derived from the program identifier it is given. *)
Definition spec_builder (signer : Keypair) (programId : PublicKey)
  : Result TransactionInstruction :=
  bindR (derive programId "token_mint") (fun tokenMint =>
  bindR (derive programId "token_auth") (fun tokenAuth =>
    Ok (mkTransactionInstruction
          (layout (publicKey signer) tokenMint tokenAuth) programId [x03]))).

(** The submissions a step makes when started in [w]. *)
Definition submissions_of {Env A} (m : M Env A) (w : World Env) : list Submission :=
  skipn (List.length (submitted w)) (submitted (snd (m w))).

(** The instructions of those submissions, in order. *)
Definition instructions_of {Env A} (m : M Env A) (w : World Env)
  : list TransactionInstruction :=
  flat_map (fun s => instructions (sub_transaction s)) (submissions_of m w).

(** The lines a step prints when started in [w]. *)
Definition printed_by {Env A} (m : M Env A) (w : World Env) : list Line :=
  skipn (List.length (console w)) (console (snd (m w))).

(** The endpoint [main] connects to. *)
Definition localhost : Connection := mkConnection "http://localhost:8899".

(** The one submission of a run that got a keypair. *)
Definition submission_for (signer : Keypair) : Submission :=
  mkSubmission localhost (mkTransaction [assembled signer]) [signer].

(** The line [main] prints for a transaction identifier. *)
Definition explorer_line (txid : string) : Line :=
  LogString ("Transaction submitted: https://explorer.solana.com/tx/"
             ++ txid ++ "?cluster=devnet")%string.


(** Concrete collaborators to run the script against: a key store that
    hands out one fixed keypair, a node that confirms, a node that
    cannot be reached. *)
Module Demo.

Definition alice : Keypair := mkKeypair (mkPublicKey 7) [x01; x02].

(** The same public identity under another secret. *)
Definition alice' : Keypair := mkKeypair (mkPublicKey 7) [x03].

Definition key_store (c : Connection) (e : unit) : Result Keypair * unit :=
  (Ok alice, e).

Definition node_up (c : Connection) (tx : Transaction) (signers : list Keypair)
    (e : unit) : Result string * unit :=
  (Ok "5VERv8NMvzbJMEkV8xnrLkEaWRtSz9CosKDYjCJjBRnbJLgp8uirBgmQpjKhoR4tjF3ZpRzrFmBV6UjKdiSZkQUW", e).

Definition node_down (c : Connection) (tx : Transaction) (signers : list Keypair)
    (e : unit) : Result string * unit :=
  (Throw (Error "failed to send transaction: connection refused"), e).

Definition fresh : World unit := mkWorld tt [] [].

End Demo.

(** Collaborators that answer only at the endpoint of [main] and fail
    everywhere else. *)
Module LocalOnly.

Definition at_localhost (c : Connection) : bool :=
  String.eqb (rpcEndpoint c) "http://localhost:8899".

Definition key_store (c : Connection) (e : unit) : Result Keypair * unit :=
  if at_localhost c then (Ok Demo.alice, e)
  else (Throw (Error "unknown endpoint"), e).

Definition node_up (c : Connection) (tx : Transaction) (signers : list Keypair)
    (e : unit) : Result string * unit :=
  if at_localhost c then Demo.node_up c tx signers e
  else (Throw (Error "unknown endpoint"), e).

End LocalOnly.

(** * Properties *)

(** ** The field arithmetic computes residues *)

Lemma carry_mod (x : Z) : Ed25519.carry x mod Ed25519.P = x mod Ed25519.P.
Proof.
  unfold Ed25519.carry.
  rewrite Z.land_ones, Z.shiftr_div_pow2 by lia.
  set (q := x / 2 ^ 255).
  assert (Hx : x = (x mod 2 ^ 255 + 19 * q) + q * Ed25519.P).
  { unfold Ed25519.P, q.
    pose proof (Z.div_mod x (2 ^ 255) ltac:(lia)) as E. lia. }
  rewrite <- (Z_mod_plus_full (x mod 2 ^ 255 + 19 * q) q Ed25519.P).
  f_equal. symmetry. exact Hx.
Qed.

(** [reduce] is the residue modulo the field prime, for every integer. *)
Lemma reduce_mod (x : Z) : Ed25519.reduce x = x mod Ed25519.P.
Proof. unfold Ed25519.reduce. now rewrite !carry_mod. Qed.

Lemma fmul_mod (a b : Z) : Ed25519.fmul a b = (a * b) mod Ed25519.P.
Proof. apply reduce_mod. Qed.

(** The two constants of the curve are what their names say:
    d * 121666 = -121665 and I * I = -1 in the field. *)
Lemma curve_constants :
  Ed25519.fmul Ed25519.D 121666 = Ed25519.reduce (- 121665)
  /\ Ed25519.fsq Ed25519.I = Ed25519.reduce (- 1).
Proof. split; vm_compute; reflexivity. Qed.

(** The constants start and end as FIPS 180-4 lists them. *)
Lemma sha256_constants :
  Sha256.ra Sha256.init = 0x6a09e667 /\ Sha256.rh Sha256.init = 0x5be0cd19
  /\ nth_error Sha256.K 0 = Some 0x428a2f98
  /\ nth_error Sha256.K 63 = Some 0xc67178f2
  /\ List.length Sha256.K = 64%nat.
Proof. repeat split. Qed.

(** SHA-256 on the test vectors of FIPS 180-4: the digests of "abc"
    and of the two-block message. *)
Lemma sha256_abc :
  be_to_Z (Sha256.sha256 (Buffer_from "abc"))
  = 0xba7816bf8f01cfea414140de5dae2223b00361a396177a9cb410ff61f20015ad.
Proof. vm_compute. reflexivity. Qed.

Lemma sha256_two_blocks :
  be_to_Z (Sha256.sha256
             (Buffer_from "abcdbcdecdefdefgefghfghighijhijkijkljklmklmnlmnomnopnopq"))
  = 0x248d6a61d20638b8e5c026930c3e6039a33ce45964ff2167f6ecedd419db06c1.
Proof. vm_compute. reflexivity. Qed.

(** ** The constants are well-formed keys *)

Lemma PROGRAM_ID_constructed :
  PublicKey_of_string "4QPCBtQ1qSwTmUy9yrGZoqCjZPen8eCE2HcHtKeNWYj6" = Ok PROGRAM_ID.
Proof. vm_compute. reflexivity. Qed.

Lemma SystemProgram_programId_constructed :
  PublicKey_of_string "11111111111111111111111111111111" = Ok SystemProgram_programId.
Proof. vm_compute. reflexivity. Qed.

Lemma TOKEN_PROGRAM_ID_constructed :
  PublicKey_of_string "TokenkegQfeZyiNwAJbNbGKPFXCWuBvf9Ss623VQ5DA" = Ok TOKEN_PROGRAM_ID.
Proof. vm_compute. reflexivity. Qed.

Lemma SYSVAR_RENT_PUBKEY_constructed :
  PublicKey_of_string "SysvarRent111111111111111111111111111111111" = Ok SYSVAR_RENT_PUBKEY.
Proof. vm_compute. reflexivity. Qed.

Lemma new_Connection_localhost :
  new_Connection "http://localhost:8899" = Ok localhost.
Proof. reflexivity. Qed.

(** ** Address derivation at the documented program identifier *)

Lemma find_token_mint :
  findProgramAddress [Buffer_from "token_mint"] PROGRAM_ID = Ok (tokenMint_address, 254).
Proof. vm_compute. reflexivity. Qed.

Lemma find_token_auth :
  findProgramAddress [Buffer_from "token_auth"] PROGRAM_ID = Ok (tokenAuth_address, 253).
Proof. vm_compute. reflexivity. Qed.



(** From here on the derivation is only used through the lemmas above. *)
#[local] Opaque findProgramAddress.

Lemma derive_token_mint : derive PROGRAM_ID "token_mint" = Ok tokenMint_address.
Proof. unfold derive. now rewrite find_token_mint. Qed.

Lemma derive_token_auth : derive PROGRAM_ID "token_auth" = Ok tokenAuth_address.
Proof. unfold derive. now rewrite find_token_auth. Qed.

(** ** What the builder does *)

Lemma skipn_length_app {A} (l l' : list A) : skipn (List.length l) (l ++ l') = l'.
Proof. induction l as [|a l IH]; simpl; auto. Qed.

Lemma skipn_length_self {A} (l : list A) : skipn (List.length l) l = [].
Proof. induction l as [|a l IH]; simpl; auto. Qed.

Section Builder.

Context {Env : Type}.
Variable send : Connection -> Transaction -> list Keypair -> Env -> Result string * Env.

Local Abbreviation builder := (initializeProgramTokenMint send).

(** Both derivations succeed, so the builder comes down to the one
    call of the submission collaborator. *)
Lemma builder_submits connection signer programId w :
  builder connection signer programId w
  = sendAndConfirmTransaction send connection
      (mkTransaction [assembled signer]) [signer] w.
Proof.
  unfold initializeProgramTokenMint, bind, lift.
  rewrite find_token_mint, find_token_auth. reflexivity.
Qed.

Lemma builder_world connection signer programId w :
  snd (builder connection signer programId w)
  = mkWorld
      (snd (send connection (mkTransaction [assembled signer]) [signer] (env w)))
      (console w)
      (submitted w
         ++ [mkSubmission connection (mkTransaction [assembled signer]) [signer]]).
Proof.
  rewrite builder_submits. unfold sendAndConfirmTransaction.
  now destruct (send _ _ _ _).
Qed.

Lemma builder_submissions connection signer programId w :
  submissions_of (builder connection signer programId) w
  = [mkSubmission connection (mkTransaction [assembled signer]) [signer]].
Proof.
  unfold submissions_of. rewrite builder_world. simpl.
  apply skipn_length_app.
Qed.

Lemma builder_instructions connection signer programId w :
  instructions_of (builder connection signer programId) w = [assembled signer].
Proof. unfold instructions_of. now rewrite builder_submissions. Qed.

(** The builder resolves or rejects exactly as the collaborator does. *)
Lemma builder_outcome connection signer programId w :
  fst (builder connection signer programId w)
  = of_result
      (fst (send connection (mkTransaction [assembled signer]) [signer] (env w))).
Proof.
  rewrite builder_submits. unfold sendAndConfirmTransaction.
  now destruct (send _ _ _ _).
Qed.

(** C1. For every signer and every program identifier, the instruction
    the builder produces has an account list of exactly six entries, in
    this order: the signer (is-signer, not writable), tokenMint (not
    signer, writable), tokenAuth, the system program, the token program
    and the rent sysvar (these four neither signer nor writable), where
    tokenMint and tokenAuth are the addresses the builder derived with
    the seeds "token_mint" and "token_auth". *)
Theorem account_list_layout connection signer programId w :
  exists ix,
    instructions_of (builder connection signer programId) w = [ix]
    /\ keys ix =
       [ {| pubkey := publicKey signer; isSigner := true; isWritable := false |};
         {| pubkey := tokenMint_address; isSigner := false; isWritable := true |};
         {| pubkey := tokenAuth_address; isSigner := false; isWritable := false |};
         {| pubkey := SystemProgram_programId; isSigner := false; isWritable := false |};
         {| pubkey := TOKEN_PROGRAM_ID; isSigner := false; isWritable := false |};
         {| pubkey := SYSVAR_RENT_PUBKEY; isSigner := false; isWritable := false |} ]
    /\ List.length (keys ix) = 6%nat
    /\ derive PROGRAM_ID "token_mint" = Ok tokenMint_address
    /\ derive PROGRAM_ID "token_auth" = Ok tokenAuth_address.
Proof.
  exists (assembled signer). rewrite builder_instructions.
  split; [reflexivity|]. split; [reflexivity|]. split; [reflexivity|].
  split; [apply derive_token_mint | apply derive_token_auth].
Qed.

(** C3. For every signer and every program identifier, the opcode
    payload of the produced instruction is the single byte 3. *)
Theorem opcode_is_byte_3 connection signer programId w :
  exists ix,
    instructions_of (builder connection signer programId) w = [ix]
    /\ data ix = [x03]
    /\ map byte_to_Z (data ix) = [3].
Proof.
  exists (assembled signer). rewrite builder_instructions.
  split; [reflexivity|]. split; reflexivity.
Qed.

(** C10. The programId argument has no influence: for any two program
    identifiers the builder behaves identically and builds the same
    instruction, whose target program and whose two derived addresses
    come from the constant PROGRAM_ID. *)
Theorem programId_argument_ignored connection signer programId1 programId2 w :
  builder connection signer programId1 w = builder connection signer programId2 w
  /\ exists ix,
       instructions_of (builder connection signer programId1) w = [ix]
       /\ instructions_of (builder connection signer programId2) w = [ix]
       /\ Web3.programId ix = PROGRAM_ID
       /\ map pubkey (firstn 2 (skipn 1 (keys ix)))
          = [tokenMint_address; tokenAuth_address]
       /\ derive PROGRAM_ID "token_mint" = Ok tokenMint_address
       /\ derive PROGRAM_ID "token_auth" = Ok tokenAuth_address.
Proof.
  split.
  - now rewrite !builder_submits.
  - exists (assembled signer). rewrite !builder_instructions.
    split; [reflexivity|]. split; [reflexivity|]. split; [reflexivity|].
    split; [reflexivity|].
    split; [apply derive_token_mint | apply derive_token_auth].
Qed.

End Builder.

(** C4. With the documented program identifier, whatever the signer,
    the 4th, 5th and 6th account references of the built instruction
    are the system program, the token program and the rent sysvar, and
    they are the same in any two runs, also under different signers,
    connections and collaborators. *)
Theorem well_known_accounts_fixed {Env1 Env2 : Type}
    (send1 : Connection -> Transaction -> list Keypair -> Env1 -> Result string * Env1)
    (send2 : Connection -> Transaction -> list Keypair -> Env2 -> Result string * Env2)
    (connection1 connection2 : Connection) (signer1 signer2 : Keypair)
    (w1 : World Env1) (w2 : World Env2) :
  exists ix1 ix2,
    PublicKey_of_string "4QPCBtQ1qSwTmUy9yrGZoqCjZPen8eCE2HcHtKeNWYj6" = Ok PROGRAM_ID
    /\ instructions_of
         (initializeProgramTokenMint send1 connection1 signer1 PROGRAM_ID) w1 = [ix1]
    /\ instructions_of
         (initializeProgramTokenMint send2 connection2 signer2 PROGRAM_ID) w2 = [ix2]
    /\ nth_error (keys ix1) 3 = Some (mkAccountMeta SystemProgram_programId false false)
    /\ nth_error (keys ix1) 4 = Some (mkAccountMeta TOKEN_PROGRAM_ID false false)
    /\ nth_error (keys ix1) 5 = Some (mkAccountMeta SYSVAR_RENT_PUBKEY false false)
    /\ nth_error (keys ix1) 6 = None
    /\ skipn 3 (keys ix2) = skipn 3 (keys ix1).
Proof.
  exists (assembled signer1), (assembled signer2).
  rewrite !builder_instructions.
  split; [apply PROGRAM_ID_constructed|].
  split; [reflexivity|]. split; [reflexivity|].
  unfold assembled, layout, keys. repeat split.
Qed.

(** C8. Address derivation is a function of (program identifier, seed)
    alone: run in any two worlds it gives the same result and leaves
    the world as it was.  Consequently any two runs of the builder,
    whatever the connections, worlds and collaborators, produce
    instructions that are identical but for the signer's own entry; for
    the same signer identity, whatever the secret behind it, they are
    identical. *)
Theorem derivation_deterministic {Env1 Env2 : Type}
    (send1 : Connection -> Transaction -> list Keypair -> Env1 -> Result string * Env1)
    (send2 : Connection -> Transaction -> list Keypair -> Env2 -> Result string * Env2)
    (connection1 connection2 : Connection) (signer1 signer2 : Keypair)
    (programId : PublicKey) (seed : string)
    (w1 : World Env1) (w2 : World Env2) :
  fst (lift (findProgramAddress [Buffer_from seed] programId) w1)
  = fst (lift (findProgramAddress [Buffer_from seed] programId) w2)
  /\ snd (lift (findProgramAddress [Buffer_from seed] programId) w1) = w1
  /\ (exists ix1 ix2,
        instructions_of
          (initializeProgramTokenMint send1 connection1 signer1 programId) w1 = [ix1]
        /\ instructions_of
             (initializeProgramTokenMint send2 connection2 signer2 programId) w2 = [ix2]
        /\ ix1 = mkTransactionInstruction
                   (mkAccountMeta (publicKey signer1) true false :: tl (keys ix2))
                   (Web3.programId ix2) (data ix2))
  /\ (publicKey signer1 = publicKey signer2 ->
      instructions_of (initializeProgramTokenMint send1 connection1 signer1 programId) w1
      = instructions_of (initializeProgramTokenMint send2 connection2 signer2 programId) w2).
Proof.
  split; [reflexivity|]. split; [reflexivity|].
  rewrite !builder_instructions. split.
  - exists (assembled signer1), (assembled signer2).
    split; [reflexivity|]. split; reflexivity.
  - intros Hsigner. unfold assembled. now rewrite Hsigner.
Qed.

Lemma derivation_deterministic_witness :
  publicKey Demo.alice = publicKey Demo.alice'
  /\ Demo.alice <> Demo.alice'
  /\ instructions_of
       (initializeProgramTokenMint Demo.node_up localhost Demo.alice PROGRAM_ID) Demo.fresh
     = instructions_of
         (initializeProgramTokenMint Demo.node_down
            (mkConnection "https://api.devnet.solana.com") Demo.alice' PROGRAM_ID)
         (mkWorld tt [LogString "earlier"] []).
Proof.
  split; [reflexivity|]. split; [discriminate|].
  apply (derivation_deterministic Demo.node_up Demo.node_down localhost
           (mkConnection "https://api.devnet.solana.com") Demo.alice Demo.alice'
           PROGRAM_ID "token_mint" Demo.fresh (mkWorld tt [LogString "earlier"] [])).
  reflexivity.
Defined.

(** ** What a whole run does *)

Section Run.

Context {Env : Type}.
Variable ik : Connection -> Env -> Result Keypair * Env.
Variable send : Connection -> Transaction -> list Keypair -> Env -> Result string * Env.

(** Unfolds [main] up to the calls of the two collaborators. *)
Ltac step_main Hik :=
  unfold main, bind, lift, initializeKeypair;
  rewrite new_Connection_localhost; cbv beta iota delta [of_result];
  rewrite Hik; cbv beta iota delta [of_result].

Lemma main_keypair_fails w e env1 :
  ik localhost (env w) = (Throw e, env1) ->
  main ik send w = (Rejected e, mkWorld env1 (console w) (submitted w)).
Proof. intros Hik. now step_main Hik. Qed.

Lemma main_submission_fails w signer env1 e env2 :
  ik localhost (env w) = (Ok signer, env1) ->
  send localhost (mkTransaction [assembled signer]) [signer] env1 = (Throw e, env2) ->
  main ik send w
  = (Rejected e,
     mkWorld env2 (console w) (submitted w ++ [submission_for signer])).
Proof.
  intros Hik Hsend. step_main Hik.
  rewrite builder_submits. unfold sendAndConfirmTransaction.
  cbn [env console submitted]. now rewrite Hsend.
Qed.

Lemma main_succeeds w signer env1 txid env2 :
  ik localhost (env w) = (Ok signer, env1) ->
  send localhost (mkTransaction [assembled signer]) [signer] env1 = (Ok txid, env2) ->
  main ik send w
  = (Resolved tt,
     mkWorld env2 (console w ++ [explorer_line txid])
             (submitted w ++ [submission_for signer])).
Proof.
  intros Hik Hsend. step_main Hik.
  rewrite builder_submits. unfold sendAndConfirmTransaction.
  cbn [env console submitted]. now rewrite Hsend.
Qed.

(** [main] never exits the process by itself. *)
Lemma main_does_not_exit w code w' : main ik send w <> (Exited code, w').
Proof.
  destruct (ik localhost (env w)) as [[signer|e] env1] eqn:Hik.
  - destruct (send localhost (mkTransaction [assembled signer]) [signer] env1)
      as [[txid|e] env2] eqn:Hsend.
    + now rewrite (main_succeeds _ _ _ _ _ Hik Hsend).
    + now rewrite (main_submission_fails _ _ _ _ _ Hik Hsend).
  - now rewrite (main_keypair_fails _ _ _ Hik).
Qed.

(** A rejection of [main] is the failure of one of the two
    collaborators, with the very value that collaborator threw. *)
Lemma main_rejection_origin w e w' :
  main ik send w = (Rejected e, w') ->
  ik localhost (env w) = (Throw e, env w')
  \/ exists signer env1,
       ik localhost (env w) = (Ok signer, env1)
       /\ send localhost (mkTransaction [assembled signer]) [signer] env1
          = (Throw e, env w').
Proof.
  intros Hmain.
  destruct (ik localhost (env w)) as [[signer|e0] env1] eqn:Hik.
  - destruct (send localhost (mkTransaction [assembled signer]) [signer] env1)
      as [[txid|e1] env2] eqn:Hsend.
    + rewrite (main_succeeds _ _ _ _ _ Hik Hsend) in Hmain. discriminate.
    + rewrite (main_submission_fails _ _ _ _ _ Hik Hsend) in Hmain.
      injection Hmain as -> <-. right. exists signer, env1. auto.
  - rewrite (main_keypair_fails _ _ _ Hik) in Hmain.
    injection Hmain as -> <-. left. reflexivity.
Qed.

Lemma run_after_rejection w e w' :
  main ik send w = (Rejected e, w') ->
  run ik send w
  = (Exited 1, mkWorld (env w') (console w' ++ [LogError e]) (submitted w')).
Proof.
  intros Hmain. unfold run, catch, bind. rewrite Hmain. reflexivity.
Qed.

Lemma run_after_success w w' :
  main ik send w = (Resolved tt, w') ->
  run ik send w
  = (Exited 0,
     mkWorld (env w') (console w' ++ [LogString "Finished successfully"])
             (submitted w')).
Proof.
  intros Hmain. unfold run, catch, bind. rewrite Hmain. reflexivity.
Qed.

(** C5. The builder makes exactly one submission, and its transaction
    holds exactly one instruction, the assembled one; a whole run
    submits that single-instruction transaction once when the keypair
    is supplied and nothing otherwise. *)
Theorem one_instruction_per_transaction connection signer programId w :
  (exists tx,
      submissions_of (initializeProgramTokenMint send connection signer programId) w
      = [mkSubmission connection tx [signer]]
      /\ instructions tx = [assembled signer]
      /\ List.length (instructions tx) = 1%nat)
  /\ submissions_of (run ik send) w
     = match fst (ik localhost (env w)) with
       | Ok signer0 => [submission_for signer0]
       | Throw _ => []
       end.
Proof.
  split.
  - exists (mkTransaction [assembled signer]).
    rewrite builder_submissions. repeat split.
  - unfold submissions_of.
    destruct (ik localhost (env w)) as [[signer0|e] env1] eqn:Hik; cbn [fst].
    + destruct (send localhost (mkTransaction [assembled signer0]) [signer0] env1)
        as [[txid|e] env2] eqn:Hsend.
      * rewrite (run_after_success _ _ (main_succeeds _ _ _ _ _ Hik Hsend)).
        cbn [snd submitted]. apply skipn_length_app.
      * rewrite (run_after_rejection _ _ _ (main_submission_fails _ _ _ _ _ Hik Hsend)).
        cbn [snd submitted]. apply skipn_length_app.
    + rewrite (run_after_rejection _ _ _ (main_keypair_fails _ _ _ Hik)).
      cbn [snd submitted]. apply skipn_length_self.
Qed.

(** C6. When a step of the run throws -- the identity collaborator or
    the submission collaborator, the derivations never do -- the run
    exits with code 1 and the only thing it prints is the thrown value
    itself: neither the explorer line nor "Finished successfully". *)
Theorem failure_exits_1 w e env' :
  (ik localhost (env w) = (Throw e, env')
   \/ exists signer env1,
        ik localhost (env w) = (Ok signer, env1)
        /\ send localhost (mkTransaction [assembled signer]) [signer] env1
           = (Throw e, env')) ->
  fst (run ik send w) = Exited 1
  /\ printed_by (run ik send) w = [LogError e]
  /\ env (snd (run ik send w)) = env'.
Proof.
  intros [Hik | (signer & env1 & Hik & Hsend)]; unfold printed_by.
  - rewrite (run_after_rejection _ _ _ (main_keypair_fails _ _ _ Hik)).
    cbn [fst snd console env]. repeat split. apply skipn_length_app.
  - rewrite (run_after_rejection _ _ _ (main_submission_fails _ _ _ _ _ Hik Hsend)).
    cbn [fst snd console env]. repeat split. apply skipn_length_app.
Qed.

(** C7. When the run succeeds, it prints the explorer URL built from
    the transaction identifier the submission collaborator returned,
    then "Finished successfully", and exits with code 0. *)
Theorem success_exits_0 w signer env1 txid env2 :
  ik localhost (env w) = (Ok signer, env1) ->
  send localhost (mkTransaction [assembled signer]) [signer] env1 = (Ok txid, env2) ->
  fst (run ik send w) = Exited 0
  /\ printed_by (run ik send) w
     = [ LogString ("Transaction submitted: https://explorer.solana.com/tx/"
                    ++ txid ++ "?cluster=devnet")%string;
         LogString "Finished successfully" ]
  /\ env (snd (run ik send w)) = env2.
Proof.
  intros Hik Hsend. unfold printed_by.
  rewrite (run_after_success _ _ (main_succeeds _ _ _ _ _ Hik Hsend)).
  cbn [fst snd console env]. repeat split.
  rewrite <- app_assoc. apply skipn_length_app.
Qed.

End Run.

Lemma failure_exits_1_witness :
  fst (run Demo.key_store Demo.node_down Demo.fresh) = Exited 1
  /\ printed_by (run Demo.key_store Demo.node_down) Demo.fresh
     = [LogError (Error "failed to send transaction: connection refused")]
  /\ env (snd (run Demo.key_store Demo.node_down Demo.fresh)) = tt.
Proof.
  apply (failure_exits_1 Demo.key_store Demo.node_down Demo.fresh
           (Error "failed to send transaction: connection refused") tt).
  right. exists Demo.alice, tt. split; reflexivity.
Defined.

Lemma success_exits_0_witness :
  fst (run Demo.key_store Demo.node_up Demo.fresh) = Exited 0
  /\ printed_by (run Demo.key_store Demo.node_up) Demo.fresh
     = [ LogString "Transaction submitted: https://explorer.solana.com/tx/5VERv8NMvzbJMEkV8xnrLkEaWRtSz9CosKDYjCJjBRnbJLgp8uirBgmQpjKhoR4tjF3ZpRzrFmBV6UjKdiSZkQUW?cluster=devnet";
         LogString "Finished successfully" ]
  /\ env (snd (run Demo.key_store Demo.node_up Demo.fresh)) = tt.
Proof.
  apply (success_exits_0 Demo.key_store Demo.node_up Demo.fresh Demo.alice tt
           "5VERv8NMvzbJMEkV8xnrLkEaWRtSz9CosKDYjCJjBRnbJLgp8uirBgmQpjKhoR4tjF3ZpRzrFmBV6UjKdiSZkQUW"
           tt); reflexivity.
Defined.

(** ** The derivation against the spec's wording *)



(** Called as [main] calls it, with the constant itself, the builder
    produces the instruction of the spec's wording. *)
Lemma spec_builder_at_PROGRAM_ID signer :
  spec_builder signer PROGRAM_ID = Ok (assembled signer).
Proof.
  unfold spec_builder. now rewrite derive_token_mint, derive_token_auth.
Qed.

(** C9. For the documented program identifier, the address derived from
    the seed "token_mint" differs from the one derived from
    "token_auth". *)
Theorem derived_addresses_differ :
  exists programId tokenMint tokenAuth,
    PublicKey_of_string "4QPCBtQ1qSwTmUy9yrGZoqCjZPen8eCE2HcHtKeNWYj6" = Ok programId
    /\ derive programId "token_mint" = Ok tokenMint
    /\ derive programId "token_auth" = Ok tokenAuth
    /\ tokenMint <> tokenAuth.
Proof.
  exists PROGRAM_ID, tokenMint_address, tokenAuth_address.
  split; [apply PROGRAM_ID_constructed|].
  split; [apply derive_token_mint|].
  split; [apply derive_token_auth|].
  discriminate.
Qed.



(** * Further properties of the script *)

(** ** Strings: the text around the transaction identifier *)

Lemma string_length_append (a b : string) :
  String.length (a ++ b)%string = (String.length a + String.length b)%nat.
Proof. induction a as [|c a IH]; simpl; auto. Qed.

Lemma string_append_inj_r (a b s : string) :
  (a ++ s)%string = (b ++ s)%string -> a = b.
Proof.
  revert b. induction a as [|c a IH]; intros [|c' b] H; simpl in H.
  - reflexivity.
  - apply (f_equal String.length) in H. simpl in H.
    rewrite string_length_append in H. lia.
  - apply (f_equal String.length) in H. simpl in H.
    rewrite string_length_append in H. lia.
  - injection H as -> H. f_equal. auto.
Qed.

Lemma explorer_line_inj (txid1 txid2 : string) :
  explorer_line txid1 = explorer_line txid2 -> txid1 = txid2.
Proof.
  unfold explorer_line. intros H. injection H as H.
  now apply string_append_inj_r in H.
Qed.

Section RunOutcomes.

Context {Env : Type}.
Variable ik : Connection -> Env -> Result Keypair * Env.
Variable send : Connection -> Transaction -> list Keypair -> Env -> Result string * Env.

(** The three ways a run can go. *)
Lemma run_cases w :
  (exists signer env1 txid env2,
      ik localhost (env w) = (Ok signer, env1)
      /\ send localhost (mkTransaction [assembled signer]) [signer] env1 = (Ok txid, env2)
      /\ run ik send w
         = (Exited 0,
            mkWorld env2
              (console w ++ [explorer_line txid; LogString "Finished successfully"])
              (submitted w ++ [submission_for signer])))
  \/ (exists signer env1 e env2,
        ik localhost (env w) = (Ok signer, env1)
        /\ send localhost (mkTransaction [assembled signer]) [signer] env1 = (Throw e, env2)
        /\ run ik send w
           = (Exited 1,
              mkWorld env2 (console w ++ [LogError e])
                (submitted w ++ [submission_for signer])))
  \/ (exists e env1,
        ik localhost (env w) = (Throw e, env1)
        /\ run ik send w
           = (Exited 1, mkWorld env1 (console w ++ [LogError e]) (submitted w))).
Proof.
  destruct (ik localhost (env w)) as [[signer|e] env1] eqn:Hik.
  - destruct (send localhost (mkTransaction [assembled signer]) [signer] env1)
      as [[txid|e] env2] eqn:Hsend.
    + left. exists signer, env1, txid, env2.
      split; [reflexivity|]. split; [exact Hsend|].
      rewrite (run_after_success _ _ _ _ (main_succeeds _ _ _ _ _ _ _ Hik Hsend)).
      cbn [env console submitted]. now rewrite <- app_assoc.
    + right. left. exists signer, env1, e, env2.
      split; [reflexivity|]. split; [exact Hsend|].
      now rewrite (run_after_rejection _ _ _ _ _
                     (main_submission_fails _ _ _ _ _ _ _ Hik Hsend)).
  - right. right. exists e, env1. split; [reflexivity|].
    now rewrite (run_after_rejection _ _ _ _ _ (main_keypair_fails _ _ _ _ _ Hik)).
Qed.

(** The submissions of a run: one if the keypair was supplied. *)
Lemma run_submissions w :
  submissions_of (run ik send) w
  = match fst (ik localhost (env w)) with
    | Ok signer => [submission_for signer]
    | Throw _ => []
    end.
Proof.
  unfold submissions_of.
  destruct (run_cases w)
    as [(signer & env1 & txid & env2 & Hik & Hsend & Hrun)
       |[(signer & env1 & e & env2 & Hik & Hsend & Hrun)
        |(e & env1 & Hik & Hrun)]]; rewrite Hrun, Hik; cbn [fst snd submitted].
  - apply skipn_length_app.
  - apply skipn_length_app.
  - apply skipn_length_self.
Qed.



(** X3. In every submission a run makes, the accounts flagged as
    signers are exactly the public keys of the signers handed to the
    submission collaborator, in the same order. *)
Theorem signer_flags_match_signers w :
  Forall
    (fun s =>
       Forall
         (fun ix => map pubkey (filter isSigner (keys ix))
                    = map publicKey (sub_signers s))
         (instructions (sub_transaction s)))
    (submissions_of (run ik send) w).
Proof.
  rewrite run_submissions.
  destruct (fst (ik localhost (env w))) as [signer|e]; repeat constructor.
Qed.

(** X4. Called as [main] calls it, with the constant itself, the
    builder's unused parameter makes no difference: every instruction
    a run submits is the one obtained by deriving both addresses from
    the program identifier [main] passes and targeting that
    identifier. *)
Theorem run_submits_worded_instruction w :
  Forall
    (fun s =>
       exists signer ix,
         sub_signers s = [signer]
         /\ spec_builder signer PROGRAM_ID = Ok ix
         /\ instructions (sub_transaction s) = [ix])
    (submissions_of (run ik send) w).
Proof.
  rewrite run_submissions.
  destruct (fst (ik localhost (env w))) as [signer|e]; constructor; [|constructor].
  exists signer, (assembled signer).
  split; [reflexivity|]. split; [apply spec_builder_at_PROGRAM_ID | reflexivity].
Qed.

(** X5. The builder adds nothing of its own to what the submission
    collaborator does: it resolves with the very identifier the
    collaborator returns and rejects with the very value the
    collaborator throws, it never exits the process, it prints
    nothing, and it leaves the outside world as the collaborator left
    it. *)
Theorem builder_transparent connection signer programId w :
  exists tx,
    instructions tx = [assembled signer]
    /\ fst (initializeProgramTokenMint send connection signer programId w)
       = of_result (fst (send connection tx [signer] (env w)))
    /\ env (snd (initializeProgramTokenMint send connection signer programId w))
       = snd (send connection tx [signer] (env w))
    /\ console (snd (initializeProgramTokenMint send connection signer programId w))
       = console w
    /\ (forall code,
          fst (initializeProgramTokenMint send connection signer programId w)
          <> Exited code).
Proof.
  exists (mkTransaction [assembled signer]).
  split; [reflexivity|].
  rewrite builder_world, builder_outcome. cbn [env console].
  split; [reflexivity|]. split; [reflexivity|]. split; [reflexivity|].
  intros code. now destruct (fst (send _ _ _ _)).
Qed.

(** X6. The explorer line determines the transaction identifier: two
    successful runs that print the same lines were given the same
    identifier by the submission collaborator. *)
Theorem printed_line_determines_txid w1 w2 signer1 signer2 env1 env1' txid1 txid2 env2 env2' :
  ik localhost (env w1) = (Ok signer1, env1) ->
  send localhost (mkTransaction [assembled signer1]) [signer1] env1 = (Ok txid1, env2) ->
  ik localhost (env w2) = (Ok signer2, env1') ->
  send localhost (mkTransaction [assembled signer2]) [signer2] env1' = (Ok txid2, env2') ->
  printed_by (run ik send) w1 = printed_by (run ik send) w2 ->
  txid1 = txid2.
Proof.
  intros Hik1 Hsend1 Hik2 Hsend2. unfold printed_by.
  rewrite (run_after_success _ _ _ _ (main_succeeds _ _ _ _ _ _ _ Hik1 Hsend1)).
  rewrite (run_after_success _ _ _ _ (main_succeeds _ _ _ _ _ _ _ Hik2 Hsend2)).
  cbn [snd console]. rewrite <- !app_assoc, !skipn_length_app.
  intros H. apply (f_equal (hd (LogString ""))) in H. cbn [hd app] in H.
  now apply explorer_line_inj.
Qed.

End RunOutcomes.

Lemma printed_line_determines_txid_witness :
  printed_by (run Demo.key_store Demo.node_up) Demo.fresh
  = printed_by (run Demo.key_store Demo.node_up) (mkWorld tt [LogString "earlier"] [])
  /\ "5VERv8NMvzbJMEkV8xnrLkEaWRtSz9CosKDYjCJjBRnbJLgp8uirBgmQpjKhoR4tjF3ZpRzrFmBV6UjKdiSZkQUW"
     = "5VERv8NMvzbJMEkV8xnrLkEaWRtSz9CosKDYjCJjBRnbJLgp8uirBgmQpjKhoR4tjF3ZpRzrFmBV6UjKdiSZkQUW".
Proof.
  assert (Hprinted :
    printed_by (run Demo.key_store Demo.node_up) Demo.fresh
    = printed_by (run Demo.key_store Demo.node_up) (mkWorld tt [LogString "earlier"] [])).
  { unfold printed_by.
    rewrite (run_after_success _ _ _ _
               (main_succeeds Demo.key_store Demo.node_up Demo.fresh Demo.alice tt _ tt
                  eq_refl eq_refl)).
    rewrite (run_after_success _ _ _ _
               (main_succeeds Demo.key_store Demo.node_up
                  (mkWorld tt [LogString "earlier"] []) Demo.alice tt _ tt
                  eq_refl eq_refl)).
    reflexivity. }
  split; [exact Hprinted|].
  exact (printed_line_determines_txid Demo.key_store Demo.node_up
           Demo.fresh (mkWorld tt [LogString "earlier"] [])
           Demo.alice Demo.alice tt tt _ _ tt tt
           eq_refl eq_refl eq_refl eq_refl Hprinted).
Defined.

(** X7. A run consults its collaborators at one endpoint only,
    http://localhost:8899: two pairs of collaborators that agree there
    give the same run, however they differ at other endpoints. *)
Theorem run_uses_localhost_only {Env : Type}
    (ik1 ik2 : Connection -> Env -> Result Keypair * Env)
    (send1 send2 : Connection -> Transaction -> list Keypair -> Env -> Result string * Env)
    (w : World Env) :
  (forall e, ik1 localhost e = ik2 localhost e) ->
  (forall tx signers e,
      send1 localhost tx signers e = send2 localhost tx signers e) ->
  run ik1 send1 w = run ik2 send2 w.
Proof.
  intros Hik Hsend.
  destruct (run_cases ik1 send1 w)
    as [(signer & env1 & txid & env2 & Hik1 & Hsend1 & Hrun)
       |[(signer & env1 & e & env2 & Hik1 & Hsend1 & Hrun)
        |(e & env1 & Hik1 & Hrun)]]; rewrite Hrun;
    rewrite Hik in Hik1; try rewrite Hsend in Hsend1.
  - rewrite (run_after_success _ _ _ _ (main_succeeds _ _ _ _ _ _ _ Hik1 Hsend1)).
    cbn [env console submitted]. now rewrite <- app_assoc.
  - now rewrite (run_after_rejection _ _ _ _ _
                   (main_submission_fails _ _ _ _ _ _ _ Hik1 Hsend1)).
  - now rewrite (run_after_rejection _ _ _ _ _ (main_keypair_fails _ _ _ _ _ Hik1)).
Qed.

Lemma run_uses_localhost_only_witness :
  Demo.key_store (mkConnection "https://api.devnet.solana.com") tt
  <> LocalOnly.key_store (mkConnection "https://api.devnet.solana.com") tt
  /\ run Demo.key_store Demo.node_up Demo.fresh
     = run LocalOnly.key_store LocalOnly.node_up Demo.fresh.
Proof.
  split; [discriminate|].
  apply (run_uses_localhost_only Demo.key_store LocalOnly.key_store
           Demo.node_up LocalOnly.node_up Demo.fresh).
  - intros e. reflexivity.
  - intros tx signers e. reflexivity.
Defined.

(** X8. When the signer is none of the five other accounts, the six
    account references of the built instruction name six different
    accounts, so no flag of one entry can be taken for another's. *)
Theorem account_keys_distinct {Env : Type}
    (send : Connection -> Transaction -> list Keypair -> Env -> Result string * Env)
    (connection : Connection) (signer : Keypair) (programId : PublicKey)
    (w : World Env) :
  ~ In (publicKey signer)
       [tokenMint_address; tokenAuth_address; SystemProgram_programId;
        TOKEN_PROGRAM_ID; SYSVAR_RENT_PUBKEY] ->
  exists ix,
    instructions_of (initializeProgramTokenMint send connection signer programId) w = [ix]
    /\ NoDup (map pubkey (keys ix)).
Proof.
  intros Hsigner. exists (assembled signer).
  split; [apply builder_instructions|].
  cbn [assembled layout keys map pubkey].
  constructor; [exact Hsigner|].
  repeat (constructor; [cbn [In]; intuition discriminate|]).
  constructor.
Qed.

Lemma account_keys_distinct_witness :
  exists ix,
    instructions_of
      (initializeProgramTokenMint Demo.node_up localhost Demo.alice PROGRAM_ID)
      Demo.fresh = [ix]
    /\ NoDup (map pubkey (keys ix)).
Proof.
  apply (account_keys_distinct Demo.node_up localhost Demo.alice PROGRAM_ID Demo.fresh).
  cbn [In]. intuition discriminate.
Defined.

(** ** Keys as bytes, and what a derivation returns *)

Lemma byte_to_Z_range (x : byte) : 0 <= byte_to_Z x < 256.
Proof.
  unfold byte_to_Z. pose proof (Byte.to_N_bounded x) as H. lia.
Qed.

Lemma byte_of_to_Z (x : byte) (a : Z) : byte_of_Z (a * 256 + byte_to_Z x) = x.
Proof.
  unfold byte_of_Z.
  rewrite Z.add_comm, Z_mod_plus_full, Z.mod_small by apply byte_to_Z_range.
  unfold byte_to_Z. now rewrite N2Z.id, Byte.of_to_N.
Qed.

Lemma be_to_Z_snoc (d : Buffer) (x : byte) :
  be_to_Z (d ++ [x]) = be_to_Z d * 256 + byte_to_Z x.
Proof. unfold be_to_Z. now rewrite fold_left_app. Qed.

(** Writing a number on as many bytes as it was read from gives the
    bytes back. *)
Lemma be_bytes_be_to_Z (d : Buffer) : be_bytes (List.length d) (be_to_Z d) = d.
Proof.
  induction d as [|x d IH] using rev_ind; [reflexivity|].
  rewrite length_app, Nat.add_comm. cbn [List.length plus be_bytes].
  rewrite be_to_Z_snoc, byte_of_to_Z. f_equal.
  rewrite Z.add_comm, Z_div_plus_full, Z.div_small by (apply byte_to_Z_range || lia).
  exact IH.
Qed.

Lemma be_bytes_length (n : nat) (z : Z) : List.length (be_bytes n z) = n.
Proof.
  revert z. induction n as [|n IH]; intros z; [reflexivity|].
  cbn [be_bytes]. rewrite length_app, IH. cbn [List.length]. lia.
Qed.

Lemma sha256_length (msg : Buffer) : List.length (Sha256.sha256 msg) = 32%nat.
Proof.
  unfold Sha256.sha256. cbv zeta. cbn [flat_map].
  now rewrite !length_app, !be_bytes_length.
Qed.

(** An address [createProgramAddress] returns is a digest that is not
    on the curve. *)
Lemma createProgramAddress_off_curve seeds programId address :
  createProgramAddress seeds programId = Ok address ->
  Ed25519.is_on_curve (toBuffer address) = false.
Proof.
  unfold createProgramAddress, bindR.
  destruct (concat_seeds seeds []) as [buffer|e]; [|discriminate].
  cbv zeta. set (digest := Sha256.sha256 _).
  destruct (Ed25519.is_on_curve digest) eqn:Hcurve; [discriminate|].
  unfold PublicKey_of_bytes.
  destruct (Nat.leb _ _); [|discriminate].
  intros H. injection H as <-.
  unfold toBuffer, PUBLIC_KEY_LENGTH. cbn [bn].
  rewrite <- (sha256_length (buffer ++ toBuffer programId
                               ++ Buffer_from "ProgramDerivedAddress")).
  fold digest. now rewrite be_bytes_be_to_Z.
Qed.

Lemma find_nonce_found n seeds programId address nonce :
  find_nonce n seeds programId = Ok (address, nonce) ->
  1 <= nonce <= Z.of_nat n
  /\ createProgramAddress (seeds ++ [Buffer_from_array [nonce]]) programId = Ok address
  /\ forall k, nonce < k <= Z.of_nat n ->
       exists message,
         createProgramAddress (seeds ++ [Buffer_from_array [k]]) programId
         = Throw (Error message).
Proof.
  induction n as [|n IH]; [discriminate|].
  cbn [find_nonce]. cbv zeta.
  destruct (createProgramAddress (seeds ++ [Buffer_from_array [Z.of_nat (S n)]]) programId)
    as [a|[message|message]] eqn:Hcreate.
  - intros H. injection H as <- <-.
    split; [lia|]. split; [exact Hcreate|]. intros k Hk. lia.
  - intros H. destruct (IH H) as (Hrange & Hfound & Hhigher).
    split; [lia|]. split; [exact Hfound|].
    intros k Hk. destruct (Z.eq_dec k (Z.of_nat (S n))) as [->|Hne].
    + exists message. exact Hcreate.
    + apply Hhigher. lia.
  - discriminate.
Qed.

(** Whatever the seeds and the program identifier, an address that
    [findProgramAddress] returns is off the curve; it comes with a
    nonce between 1 and 255 that derives it, and every higher nonce up
    to 255 was refused. *)
Lemma findProgramAddress_off_curve seeds programId address nonce :
  findProgramAddress seeds programId = Ok (address, nonce) ->
  Ed25519.is_on_curve (toBuffer address) = false
  /\ 1 <= nonce <= 255
  /\ createProgramAddress (seeds ++ [Buffer_from_array [nonce]]) programId = Ok address
  /\ forall k, nonce < k <= 255 ->
       exists message,
         createProgramAddress (seeds ++ [Buffer_from_array [k]]) programId
         = Throw (Error message).
Proof.
  intros H. change (find_nonce 255 seeds programId = Ok (address, nonce)) in H.
  destruct (find_nonce_found _ _ _ _ _ H) as (Hrange & Hfound & Hhigher).
  split; [exact (createProgramAddress_off_curve _ _ _ Hfound)|].
  split; [exact Hrange|]. split; [exact Hfound|]. exact Hhigher.
Qed.

(** X9. In every instruction the builder assembles, the two derived
    accounts, entries 2 and 3, are off the curve, so that no keypair
    signs for them, in keeping with their is-signer flags being false;
    each is derived at the highest nonce that is not refused, 254 for
    "token_mint" and 253 for "token_auth". *)
Theorem derived_address_off_curve {Env : Type}
    (send : Connection -> Transaction -> list Keypair -> Env -> Result string * Env)
    (connection : Connection) (signer : Keypair) (programId : PublicKey)
    (w : World Env) :
  exists ix tokenMint tokenAuth,
    instructions_of (initializeProgramTokenMint send connection signer programId) w
    = [ix]
    /\ map pubkey (firstn 2 (skipn 1 (keys ix))) = [tokenMint; tokenAuth]
    /\ map isSigner (firstn 2 (skipn 1 (keys ix))) = [false; false]
    /\ Ed25519.is_on_curve (toBuffer tokenMint) = false
    /\ Ed25519.is_on_curve (toBuffer tokenAuth) = false
    /\ createProgramAddress
         ([Buffer_from "token_mint"] ++ [Buffer_from_array [254]]) PROGRAM_ID
       = Ok tokenMint
    /\ createProgramAddress
         ([Buffer_from "token_auth"] ++ [Buffer_from_array [253]]) PROGRAM_ID
       = Ok tokenAuth
    /\ (forall k, 254 < k <= 255 ->
          exists message,
            createProgramAddress
              ([Buffer_from "token_mint"] ++ [Buffer_from_array [k]]) PROGRAM_ID
            = Throw (Error message))
    /\ (forall k, 253 < k <= 255 ->
          exists message,
            createProgramAddress
              ([Buffer_from "token_auth"] ++ [Buffer_from_array [k]]) PROGRAM_ID
            = Throw (Error message)).
Proof.
  destruct (findProgramAddress_off_curve _ _ _ _ find_token_mint)
    as (Hmint & _ & Hmint_nonce & Hmint_higher).
  destruct (findProgramAddress_off_curve _ _ _ _ find_token_auth)
    as (Hauth & _ & Hauth_nonce & Hauth_higher).
  exists (assembled signer), tokenMint_address, tokenAuth_address.
  split; [apply builder_instructions|].
  split; [reflexivity|]. split; [reflexivity|].
  split; [exact Hmint|]. split; [exact Hauth|].
  split; [exact Hmint_nonce|]. split; [exact Hauth_nonce|].
  split; [exact Hmint_higher | exact Hauth_higher].
Qed.
